(** * robo.js compiler bridge: [cli/compiler/typescript.ts]

    A shallow embedding of the TypeScript toolchain bridge of robo.js and
    the properties of its four operations: [preloadTransformers],
    [isTypescriptProject], [getTypeScriptCompilerOptions] and
    [buildDeclarationFiles] (with its helper [formatDiagnostic]).

    The TypeScript compiler, the SWC transformer, the logger, the file
    system and [process.exit] are collaborators of the module.  The two
    providers are records of functions, the host is a record of primitives,
    and everything the module does to the outside world (logging, dynamic
    imports, provider side effects, process termination) is recorded in a
    trace of events. *)

From Stdlib Require Import ZArith NArith List DecimalString.
From stdpp Require Import gmap strings list.

Set Warnings "-register-all".

(** ** JavaScript values *)

(** The untyped values that travel through the module: the parsed
    [tsconfig.json] (type [any]) and the values of compiler options.
    Numbers are the integers the code handles. *)
Inductive value :=
| VUndefined
| VNull
| VBool (b : bool)
| VNum (n : Z)
| VStr (s : string)
| VArr (items : list value)
| VObj (fields : list (string * value)).

(** [if (v)]: the falsy values are [undefined], [null], [false], [0] and
    the empty string. *)
Definition truthy (v : value) : bool :=
  match v with
  | VUndefined | VNull => false
  | VBool b => b
  | VNum n => negb (n =? 0)%Z
  | VStr s => negb (String.eqb s "")
  | VArr _ | VObj _ => true
  end.

Fixpoint assoc_get (fields : list (string * value)) (k : string) : value :=
  match fields with
  | [] => VUndefined
  | (k', v) :: rest => if String.eqb k k' then v else assoc_get rest k
  end.

(** [CompilerOptions]: an object used as a map from option name to value.
    A key may be present with the value [undefined]. *)
Abbreviation CompilerOptions := (gmap string value).

(** [o.k] on an options object; a missing key reads as [undefined]. *)
Definition option_get (o : CompilerOptions) (k : string) : value :=
  default VUndefined (o !! k).

(** ** Diagnostics *)

(** [ts.DiagnosticCategory] *)
Inductive DiagnosticCategory := Warning | Error | Suggestion | Message.

Record SourceFile := { fileName : string; text : string }.

Inductive DiagnosticMessageChain :=
| MessageChain (chainText : string) (next : list DiagnosticMessageChain).

(** [messageText: string | DiagnosticMessageChain] *)
Inductive MessageText :=
| PlainText (s : string)
| ChainText (c : DiagnosticMessageChain).

(** [file] and [start] are both optional in TypeScript's [Diagnostic]. *)
Record Diagnostic := {
  category : DiagnosticCategory;
  file : option SourceFile;
  start : option N;
  messageText : MessageText
}.

Record LineAndCharacter := { line : N; character : N }.

Record EmitResult := { emitSkipped : bool; diagnostics : list Diagnostic }.

(** Result of [ts.parseConfigFileTextToJson]. *)
Record ParseResult := { config : value; error : option Diagnostic }.

(** Result of [ts.convertCompilerOptionsFromJson]: the options and,
    beside them, the field-level errors of the conversion. *)
Record ConvertResult := { options : CompilerOptions; errors : list Diagnostic }.

(** ** Effects *)

Inductive level := LDebug | LInfo | LWarn | LError.

Inductive logArg :=
| AStr (s : string)
| ADiag (d : Diagnostic).

Inductive event :=
| EvLog (lvl : level) (args : list logArg)
| EvImport (specifier : string)
| EvReadFile (path : string)
| EvReadDirectory (dir : string) (extensions : list string)
| EvCreateProgram (rootNames : list string) (opts : CompilerOptions)
| EvEmit
| EvExit (status : Z).

Inductive exn :=
| ModuleNotFound (specifier : string)
| IncompatibleVersion (specifier : string)
| LoadError (specifier : string)
| FileNotReadable (path : string)
| TypeError (what : string).

(** How a computation ends: it returns, it throws, the process is gone,
    or a provider function was applied outside its declared signature, in
    which case the module says nothing about what follows. *)
Inductive outcome (A : Type) :=
| Returned (a : A)
| Thrown (e : exn)
| Exited (status : Z)
| OutOfContract.
Arguments Returned {A} a.
Arguments Thrown {A} e.
Arguments Exited {A} status.
Arguments OutOfContract {A}.

(** A settled promise. *)
Definition Promise (A : Type) : Type := A + exn.

(** [Promise.all] over two promises: rejects when either rejects; when
    both do, the reason is the one that settled first. *)
Definition Promise_all {A B : Type} (second_first : bool)
    (p : Promise A) (q : Promise B) : Promise (A * B) :=
  match p, q with
  | inl a, inl b => inl (a, b)
  | inr e, inl _ => inr e
  | inl _, inr e => inr e
  | inr e1, inr e2 => inr (if second_first then e2 else e1)
  end.

Definition is_exit (e : event) : bool :=
  match e with EvExit _ => true | _ => false end.

Definition is_log (e : event) : bool :=
  match e with EvLog _ _ => true | _ => false end.

Definition is_import (e : event) : bool :=
  match e with EvImport _ => true | _ => false end.

(** Number of times [process.exit] was invoked in a trace. *)
Definition count_exits (t : list event) : nat :=
  length (List.filter is_exit t).

(** Decimal rendering of a number inside a template literal.  Line and
    column numbers are small non-negative integers, which JavaScript
    prints in plain decimal. *)
Definition decimal (n : N) : string := NilZero.string_of_uint (N.to_uint n).

(** The separator ['\n'] handed to the message flattener. *)
Definition newline : string := String (Ascii.ascii_of_nat 10) EmptyString.

Section Bridge.

(** The provider's in-memory compilation unit and the SWC transform
    function are opaque to the module. *)
Context {Program SwcTransform : Type}.

(** ** The providers *)

(** The part of the [typescript] module that the bridge uses. *)
Record Typescript := {
  ScriptTarget_Latest : Z;
  ModuleResolutionKind_NodeNext : Z;
  sys_readDirectory : string -> list string -> list string;
  createProgram : list string -> CompilerOptions -> Program;
  emit : Program -> EmitResult;
  getPreEmitDiagnostics : Program -> list Diagnostic;
  parseConfigFileTextToJson : string -> string -> ParseResult;
  convertCompilerOptionsFromJson : value -> string -> ConvertResult;
  getLineAndCharacterOfPosition : SourceFile -> N -> LineAndCharacter;
  flattenDiagnosticMessageText : MessageText -> string -> string
}.

(** Namespace object of [import('typescript')]. *)
Record TsModule := { default_ : Typescript }.

(** Namespace object of [import('@swc/core')]. *)
Record SwcModule := { swc_transform : SwcTransform }.

(** ** The host *)

Record Host := {
  IS_BUN_RUNTIME : bool;
  cwd : string;
  path_join : string -> string -> string;
  path_dirname : string -> string;
  existsSync : string -> bool;
  readFile : string -> Promise string;
  import_typescript : Promise TsModule;
  import_swc : Promise SwcModule;
  (** whether, of two rejected imports, the second settles first *)
  swc_settles_first : bool
}.

(** ** Module state: [export let ts] and [export let transform] *)

Record Globals := { ts : option Typescript; transform : option SwcTransform }.

Definition unset : Globals := {| ts := None; transform := None |}.

(** ** The monad of the module: state, trace and abrupt endings *)

Definition M (A : Type) : Type := Globals -> outcome A * Globals * list event.

Definition ret {A} (a : A) : M A := fun g => (Returned a, g, []).

Definition bind {A B} (m : M A) (k : A -> M B) : M B :=
  fun g =>
    match m g with
    | (Returned a, g1, t1) =>
        match k a g1 with (o, g2, t2) => (o, g2, t1 ++ t2) end
    | (Thrown e, g1, t1) => (Thrown e, g1, t1)
    | (Exited s, g1, t1) => (Exited s, g1, t1)
    | (OutOfContract, g1, t1) => (OutOfContract, g1, t1)
    end.

Definition throw {A} (e : exn) : M A := fun g => (Thrown e, g, []).

Definition out_of_contract {A} : M A := fun g => (OutOfContract, g, []).

Definition emit_event (e : event) : M unit := fun g => (Returned tt, g, [e]).

(** [try { body } catch { handler }]: a thrown exception is handled; a
    terminated process is not. *)
Definition try_catch {A} (body : M A) (handler : exn -> M A) : M A :=
  fun g =>
    match body g with
    | (Thrown e, g1, t1) =>
        match handler e g1 with (o, g2, t2) => (o, g2, t1 ++ t2) end
    | r => r
    end.

(** [await p] *)
Definition await {A} (p : Promise A) : M A :=
  match p with
  | inl a => ret a
  | inr e => throw e
  end.

(** [process.exit(status)] does not return. *)
Definition process_exit {A} (status : Z) : M A :=
  fun g => (Exited status, g, [EvExit status]).

Definition compilerLogger (lvl : level) (args : list logArg) : M unit :=
  emit_event (EvLog lvl args).

(** Reading a member of the module variable [ts]: a [TypeError] when it is
    still [undefined]. *)
Definition get_ts : M Typescript :=
  fun g =>
    match ts g with
    | Some t => (Returned t, g, [])
    | None => (Thrown (TypeError "ts is undefined"), g, [])
    end.

Definition set_ts (t : Typescript) : M unit :=
  fun g => (Returned tt, {| ts := Some t; transform := transform g |}, []).

Definition set_transform (f : SwcTransform) : M unit :=
  fun g => (Returned tt, {| ts := ts g; transform := Some f |}, []).

(** [import(specifier)] starts the load and yields its promise. *)
Definition dynamic_import {A} (specifier : string) (p : Promise A) : M (Promise A) :=
  fun g => (Returned p, g, [EvImport specifier]).

(** The three components of a run. *)
Definition result {A} (r : outcome A * Globals * list event) : outcome A := r.1.1.
Definition globals {A} (r : outcome A * Globals * list event) : Globals := r.1.2.
Definition trace {A} (r : outcome A * Globals * list event) : list event := r.2.

End Bridge.

Arguments Typescript : clear implicits.
Arguments TsModule : clear implicits.
Arguments Host : clear implicits.
Arguments Globals : clear implicits.
Arguments M : clear implicits.

Declare Scope robo_scope.
Delimit Scope robo_scope with robo.
Notation "x <- c ;; k" := (bind c (fun x => k))
  (at level 100, c at next level, right associativity) : robo_scope.
Notation "c ;;; k" := (bind c (fun _ => k))
  (at level 100, k at level 200, right associativity) : robo_scope.
Open Scope robo_scope.

Section Operations.

Context {Program SwcTransform : Type}.

Local Abbreviation Ts := (Typescript Program).
Local Abbreviation Mo := (M Program SwcTransform).
Local Abbreviation host := (Host Program SwcTransform).

(** ** [preloadTransformers] *)

Definition preloadTransformers (h : host) : Mo unit :=
  try_catch
    (if negb (IS_BUN_RUNTIME h) then
       compilerLogger LDebug [AStr "Preloading Typescript transformers..."] ;;;
       p_ts <- dynamic_import "typescript" (import_typescript h) ;;
       p_swc <- dynamic_import "@swc/core" (import_swc h) ;;
       loaded <- await (Promise_all (swc_settles_first h) p_ts p_swc) ;;
       let '(typescript, swc) := loaded in
       set_ts (default_ typescript) ;;;
       set_transform (swc_transform swc)
     else ret tt)
    (fun _ => ret tt).

(** ** [isTypescriptProject] *)

Record Classification := { isTypeScript : bool; missing : list string }.

(** [typeof x === 'undefined'] on a module variable *)
Definition typeof_undefined {A} (x : option A) : bool :=
  match x with None => true | Some _ => false end.

(** [missing.push(x)] *)
Definition push (l : list string) (x : string) : list string := l ++ [x].

Definition isTypescriptProject (h : host) (g : Globals Program SwcTransform)
    : Classification :=
  let missing0 : list string := [] in
  let missing1 :=
    if negb (existsSync h (path_join h (cwd h) "tsconfig.json"))
    then push missing0 "tsconfig.json" else missing0 in
  let missing2 :=
    if typeof_undefined (ts g) then push missing1 "typescript" else missing1 in
  let missing3 :=
    if typeof_undefined (transform g) then push missing2 "@swc/core" else missing2 in
  {| isTypeScript := (length missing3 =? 0)%nat; missing := missing3 |}.

(** ** [formatDiagnostic] *)

(** [ts.getLineAndCharacterOfPosition] is declared on a position that is a
    number; [diagnostic.start] is passed to it as it is, so the call has a
    value only where [start] is defined. *)
Definition formatDiagnostic (t : Ts) (diagnostic : Diagnostic) : option string :=
  match file diagnostic with
  | Some f =>
      match start diagnostic with
      | Some pos =>
          let lc := getLineAndCharacterOfPosition t f pos in
          let message := flattenDiagnosticMessageText t (messageText diagnostic) newline in
          Some (String.concat ""
                  [fileName f; " ("; decimal (line lc + 1); ",";
                   decimal (character lc + 1); "): "; message])
      | None => None
      end
  | None => Some (flattenDiagnosticMessageText t (messageText diagnostic) newline)
  end.

(** ** [buildDeclarationFiles] *)

(** [{ ...src, ...dst }] read right to left: the properties of [src]
    overwrite those already in [dst]. *)
Definition spread (src dst : CompilerOptions) : CompilerOptions := src ∪ dst.

(** The object literal of the compiler options, property by property in
    source order. *)
Definition declarationOptions (t : Ts) (tsOptions : option CompilerOptions)
    : CompilerOptions :=
  let o := (∅ : CompilerOptions) in
  let o := <["target" := VNum (ScriptTarget_Latest t)]> o in
  let o := <["rootDir" := VStr "src"]> o in
  let o := <["outDir" := VStr ".robo/build"]> o in
  let o := <["declaration" := VBool true]> o in
  let o := <["emitDeclarationOnly" := VBool true]> o in
  let o := <["moduleResolution" := VNum (ModuleResolutionKind_NodeNext t)]> o in
  let o := <["noEmit" := VBool false]> o in
  let o := <["skipLibCheck" := VBool true]> o in
  let o := spread (default ∅ tsOptions) o in
  <["incremental" := VBool false]> o.

(** The body of the [forEach] callback. *)
Definition reportDiagnostic (t : Ts) (diagnostic : Diagnostic) : Mo unit :=
  let formatted : Mo string :=
    match formatDiagnostic t diagnostic with
    | Some s => ret s
    | None => out_of_contract
    end in
  match category diagnostic with
  | Error => s <- formatted ;; compilerLogger LError [AStr s]
  | Warning => s <- formatted ;; compilerLogger LWarn [AStr s]
  | Message | Suggestion => s <- formatted ;; compilerLogger LInfo [AStr s]
  end.

Fixpoint forEach {A} (l : list A) (f : A -> Mo unit) : Mo unit :=
  match l with
  | [] => ret tt
  | x :: rest => f x ;;; forEach rest f
  end.

(** Nothing in the body assigns [ts]: the handle read at the first use,
    [ts.ScriptTarget], is the one every later use sees. *)
Definition buildDeclarationFiles (tsOptions : option CompilerOptions) : Mo unit :=
  t <- get_ts ;;
  let options := declarationOptions t tsOptions in
  emit_event (EvReadDirectory "src" [".ts"; ".tsx"]) ;;;
  let fileNames := sys_readDirectory t "src" [".ts"; ".tsx"] in
  emit_event (EvCreateProgram fileNames options) ;;;
  let program := createProgram t fileNames options in
  emit_event EvEmit ;;;
  let emitResult := emit t program in
  let allDiagnostics := getPreEmitDiagnostics t program ++ diagnostics emitResult in
  forEach allDiagnostics (reportDiagnostic t) ;;;
  if emitSkipped emitResult then process_exit 1 else ret tt.

(** ** [getTypeScriptCompilerOptions] *)

(** [tsconfig.compilerOptions] on a value of type [any]. *)
Definition get_compilerOptions (tsconfig : value) : Mo value :=
  match tsconfig with
  | VUndefined | VNull =>
      throw (TypeError "Cannot read properties of undefined (reading 'compilerOptions')")
  | VObj fields => ret (assoc_get fields "compilerOptions")
  | VBool _ | VNum _ | VStr _ | VArr _ => ret VUndefined
  end.

Definition getTypeScriptCompilerOptions (h : host) : Mo CompilerOptions :=
  let configFileName := path_join h (cwd h) "tsconfig.json" in
  emit_event (EvReadFile configFileName) ;;;
  configFileContents <- await (readFile h configFileName) ;;
  t <- get_ts ;;
  let parsed := parseConfigFileTextToJson t configFileName configFileContents in
  let tsconfig := config parsed in
  (match error parsed with
   | Some e =>
       compilerLogger LError [AStr "Error parsing tsconfig.json:"; ADiag e] ;;;
       process_exit 1
   | None => ret tt
   end) ;;;
  compilerOptions <- get_compilerOptions tsconfig ;;
  let tsOptions :=
    options (convertCompilerOptionsFromJson t compilerOptions
               (path_dirname h configFileName)) in
  (if truthy (option_get tsOptions "errors") then
     compilerLogger LError [AStr "Error parsing compiler options from tsconfig.json"] ;;;
     process_exit 1
   else ret tt) ;;;
  ret tsOptions.

End Operations.

(** ** A concrete provider and host, for runs on explicit inputs *)

Module Sample.

(** Message flattening as a join: the head text, then every part of the
    chain behind the separator. *)
Fixpoint flatten_chain (sep : string) (c : DiagnosticMessageChain) : string :=
  match c with
  | MessageChain s rest =>
      s +:+ String.concat "" (map (fun c' => sep +:+ flatten_chain sep c') rest)
  end.

Definition flatten (m : MessageText) (sep : string) : string :=
  match m with
  | PlainText s => s
  | ChainText c => flatten_chain sep c
  end.

(** Line and column of an offset: walk the text, a line feed starts a new
    line. *)
Fixpoint locate (s : string) (pos : nat) (ln col : N) : LineAndCharacter :=
  match pos, s with
  | O, _ | _, EmptyString => {| line := ln; character := col |}
  | S pos', String c rest =>
      if Ascii.eqb c (Ascii.ascii_of_nat 10)
      then locate rest pos' (ln + 1)%N 0%N
      else locate rest pos' ln (col + 1)%N
  end.

(** A provider whose program is the pair of its inputs and whose answers
    are fixed in advance. *)
Definition provider (parsed : ParseResult) (converted : ConvertResult)
    (pre : list Diagnostic) (emitted : EmitResult)
    : Typescript (list string * CompilerOptions) :=
  {| ScriptTarget_Latest := 99;
     ModuleResolutionKind_NodeNext := 99;
     sys_readDirectory := fun _ _ => ["src/index.ts"];
     createProgram := fun names opts => (names, opts);
     emit := fun _ => emitted;
     getPreEmitDiagnostics := fun _ => pre;
     parseConfigFileTextToJson := fun _ _ => parsed;
     convertCompilerOptionsFromJson := fun _ _ => converted;
     getLineAndCharacterOfPosition := fun f pos => locate (text f) (N.to_nat pos) 0 0;
     flattenDiagnosticMessageText := flatten |}.

Definition a_ts : SourceFile :=
  {| fileName := "a.ts";
     text := "import x" +:+ newline +:+ newline +:+ newline +:+ newline
             +:+ "const y = ;;" |}.

Definition unexpected_token : Diagnostic :=
  {| category := Error; file := Some a_ts; start := Some 21%N;
     messageText := PlainText "Unexpected token" |}.

Definition unused_variable : Diagnostic :=
  {| category := Warning; file := None; start := None;
     messageText := PlainText "Unused variable" |}.

Definition no_start : Diagnostic :=
  {| category := Error; file := Some a_ts; start := None;
     messageText := PlainText "Unexpected token" |}.

Definition bad_target : Diagnostic :=
  {| category := Error; file := None; start := None;
     messageText := PlainText "Argument for '--target' option must be: 'es5', 'es6'" |}.

Definition broken_json : Diagnostic :=
  {| category := Error; file := None; start := None;
     messageText := PlainText "'}' expected." |}.

Definition good_parse : ParseResult :=
  {| config := VObj [("compilerOptions", VObj [("target", VStr "bogus")])];
     error := None |}.

Definition bad_parse : ParseResult :=
  {| config := VObj []; error := Some broken_json |}.

(** A conversion that rejected a field: the offending option is left out
    and its error is reported beside the options. *)
Definition rejected_conversion : ConvertResult :=
  {| options := ∅; errors := [bad_target] |}.

Definition clean_conversion : ConvertResult :=
  {| options := {[ "target" := VNum 7 ]}; errors := [] |}.

Definition emit_failed : EmitResult :=
  {| emitSkipped := true; diagnostics := [unused_variable] |}.

Definition emit_done : EmitResult :=
  {| emitSkipped := false; diagnostics := [unused_variable] |}.

Definition compiler : Typescript (list string * CompilerOptions) :=
  provider good_parse clean_conversion [unexpected_token] emit_failed.

(** The same compiler on a run whose emission goes through. *)
Definition compiler_emitting : Typescript (list string * CompilerOptions) :=
  provider good_parse clean_conversion [unexpected_token] emit_done.

(** A compiler that parses the config file and rejects one of its
    fields. *)
Definition compiler_rejecting : Typescript (list string * CompilerOptions) :=
  provider good_parse rejected_conversion [] emit_done.

(** A compiler that cannot parse the config file. *)
Definition compiler_not_parsing : Typescript (list string * CompilerOptions) :=
  provider bad_parse clean_conversion [] emit_done.

(** A config text that is the literal [null]. *)
Definition null_parse : ParseResult := {| config := VNull; error := None |}.

Definition compiler_null_config : Typescript (list string * CompilerOptions) :=
  provider null_parse clean_conversion [] emit_done.

(** A config that lists its sources and has no [compilerOptions]. *)
Definition bare_parse : ParseResult :=
  {| config := VObj [("include", VArr [VStr "src"])]; error := None |}.

Definition compiler_bare_config : Typescript (list string * CompilerOptions) :=
  provider bare_parse clean_conversion [] emit_done.

Definition quoted (s : string) : string :=
  String (Ascii.ascii_of_nat 34) s +:+ String (Ascii.ascii_of_nat 34) EmptyString.

(** The text of a [tsconfig.json] with an unknown target. *)
Definition tsconfig_text : string :=
  "{ " +:+ quoted "compilerOptions" +:+ ": { " +:+ quoted "target" +:+ ": "
  +:+ quoted "bogus" +:+ " } }".

Definition swc : string -> string := fun src => src.

Definition node (bun : bool)
    (imp_ts : Promise (TsModule (list string * CompilerOptions)))
    (imp_swc : Promise (@SwcModule (string -> string)))
    : Host (list string * CompilerOptions) (string -> string) :=
  {| IS_BUN_RUNTIME := bun;
     cwd := "/project";
     path_join := fun a b => a +:+ "/" +:+ b;
     path_dirname := fun _ => "/project";
     existsSync := fun p => String.eqb p "/project/tsconfig.json";
     readFile := fun p =>
       if String.eqb p "/project/tsconfig.json" then inl tsconfig_text
       else inr (FileNotReadable p);
     import_typescript := imp_ts;
     import_swc := imp_swc;
     swc_settles_first := false |}.

(** Outside Bun, [typescript] installed and [@swc/core] missing. *)
Definition swc_missing : Host (list string * CompilerOptions) (string -> string) :=
  node false (inl {| default_ := compiler |}) (inr (ModuleNotFound "@swc/core")).

(** Outside Bun, [@swc/core] installed and [typescript] of a version that
    does not load. *)
Definition ts_incompatible : Host (list string * CompilerOptions) (string -> string) :=
  node false (inr (IncompatibleVersion "typescript")) (inl {| swc_transform := swc |}).

(** Under Bun with nothing installed. *)
Definition bun_bare : Host (list string * CompilerOptions) (string -> string) :=
  node true (inr (ModuleNotFound "typescript")) (inr (LoadError "@swc/core")).

(** Outside Bun with both providers installed. *)
Definition node_full : Host (list string * CompilerOptions) (string -> string) :=
  node false (inl {| default_ := compiler |}) (inl {| swc_transform := swc |}).

(** Both providers installed, in a directory without [tsconfig.json]. *)
Definition no_config : Host (list string * CompilerOptions) (string -> string) :=
  {| IS_BUN_RUNTIME := false;
     cwd := "/elsewhere";
     path_join := fun a b => a +:+ "/" +:+ b;
     path_dirname := fun _ => "/elsewhere";
     existsSync := fun _ => false;
     readFile := fun p => inr (FileNotReadable p);
     import_typescript := inl {| default_ := compiler |};
     import_swc := inl {| swc_transform := swc |};
     swc_settles_first := false |}.

Definition loaded (t : Typescript (list string * CompilerOptions))
    : Globals (list string * CompilerOptions) (string -> string) :=
  {| ts := Some t; transform := Some swc |}.

End Sample.

(** ** The vocabulary of the specification *)

(** The logging channel of each severity. *)
Definition channel (c : DiagnosticCategory) : level :=
  match c with
  | Error => LError
  | Warning => LWarn
  | Message => LInfo
  | Suggestion => LInfo
  end.

(** [<file> (<line>,<column>): <message>] with a 1-based line and column. *)
Definition located (name : string) (ln col : N) (message : string) : string :=
  name +:+ " (" +:+ decimal ln +:+ "," +:+ decimal col +:+ "): " +:+ message.

(** A diagnostic that names a file also carries a start offset. *)
Definition well_located (d : Diagnostic) : Prop :=
  file d = None \/ start d <> None.

(** The line logged for a diagnostic: its rendering, on the channel of its
    severity. *)
Definition logged {Program} (t : Typescript Program) (d : Diagnostic) (e : event)
    : Prop :=
  exists s, formatDiagnostic t d = Some s /\ e = EvLog (channel (category d)) [AStr s].

Definition is_createProgram (e : event) : bool :=
  match e with EvCreateProgram _ _ => true | _ => false end.

Example decimal_10 : decimal 10 = "10".
Proof. reflexivity. Qed.

Example locate_a_ts :
  getLineAndCharacterOfPosition Sample.compiler Sample.a_ts 21
  = {| line := 4; character := 9 |}.
Proof. reflexivity. Qed.

Example format_sample :
  formatDiagnostic Sample.compiler Sample.unexpected_token
  = Some "a.ts (5,10): Unexpected token".
Proof. reflexivity. Qed.

(** * Properties *)

(** ** The toolchain loader *)

Section Loader.

Context {Program SwcTransform : Type}.
Implicit Types (h : Host Program SwcTransform) (g : Globals Program SwcTransform).

(** The whole behaviour of [preloadTransformers] outside Bun, by the
    outcome of the two imports. *)
Lemma preload_run h g :
  IS_BUN_RUNTIME h = false ->
  preloadTransformers h g =
    (Returned tt,
     match import_typescript h, import_swc h with
     | inl m1, inl m2 =>
         {| ts := Some (default_ m1); transform := Some (swc_transform m2) |}
     | _, _ => g
     end,
     [EvLog LDebug [AStr "Preloading Typescript transformers..."];
      EvImport "typescript"; EvImport "@swc/core"]).
Proof.
  intros Hbun. unfold preloadTransformers. rewrite Hbun. cbn.
  unfold try_catch, bind, compilerLogger, emit_event, dynamic_import. cbn.
  destruct (import_typescript h) as [m1|e1], (import_swc h) as [m2|e2];
    reflexivity.
Qed.

Lemma preload_run_bun h g :
  IS_BUN_RUNTIME h = true ->
  preloadTransformers h g = (Returned tt, g, []).
Proof.
  intros Hbun. unfold preloadTransformers. rewrite Hbun. reflexivity.
Qed.

(** C2 (as amended): outside Bun both imports are always started and
    [preloadTransformers] always returns, but the two results are coupled
    by the single [Promise.all] inside the single [try]: both handles are
    assigned when both imports succeed, and when either import fails
    neither handle is assigned. *)
Theorem preload_handles_coupled h g :
  IS_BUN_RUNTIME h = false ->
  let r := preloadTransformers h g in
  result r = Returned tt /\
  List.filter is_import (trace r) = [EvImport "typescript"; EvImport "@swc/core"] /\
  (forall m1 m2, import_typescript h = inl m1 -> import_swc h = inl m2 ->
     globals r = {| ts := Some (default_ m1); transform := Some (swc_transform m2) |}) /\
  (forall e, import_typescript h = inr e \/ import_swc h = inr e -> globals r = g).
Proof.
  intros Hbun r. subst r. rewrite (preload_run h g Hbun).
  unfold result, globals, trace. cbn.
  repeat split.
  - intros m1 m2 -> ->. reflexivity.
  - intros e [He | He]; rewrite He; [reflexivity|].
    destruct (import_typescript h); reflexivity.
Qed.

(** C3: no exception escapes [preloadTransformers], whatever the two
    imports do; a failed import (for any reason: missing dependency,
    incompatible version, load error) leaves its handle as it was, so an
    unset handle stays unset; and under Bun nothing is imported, nothing is
    logged and both handles are left as they were. *)
Theorem preload_swallows_failures h g :
  let r := preloadTransformers h g in
  result r = Returned tt /\
  (forall e, import_typescript h = inr e -> ts (globals r) = ts g) /\
  (forall e, import_swc h = inr e -> transform (globals r) = transform g) /\
  (IS_BUN_RUNTIME h = true -> globals r = g /\ trace r = []).
Proof.
  intros r. subst r.
  destruct (IS_BUN_RUNTIME h) eqn:Hbun.
  - rewrite (preload_run_bun h g Hbun). unfold result, globals, trace. cbn.
    repeat split; reflexivity.
  - rewrite (preload_run h g Hbun). unfold result, globals, trace. cbn.
    repeat split.
    + intros e ->. reflexivity.
    + intros e ->. destruct (import_typescript h); reflexivity.
    + discriminate.
    + discriminate.
Qed.

End Loader.

Lemma preload_handles_coupled_witness :
  globals (preloadTransformers Sample.ts_incompatible unset) = unset
  /\ globals (preloadTransformers Sample.node_full unset)
     = {| ts := Some Sample.compiler; transform := Some Sample.swc |}.
Proof.
  split.
  - destruct (preload_handles_coupled Sample.ts_incompatible unset eq_refl)
      as (_ & _ & _ & H).
    apply (H (IncompatibleVersion "typescript")). left. reflexivity.
  - destruct (preload_handles_coupled Sample.node_full unset eq_refl)
      as (_ & _ & H & _).
    apply (H {| default_ := Sample.compiler |} {| swc_transform := Sample.swc |});
      reflexivity.
Defined.

(** C2 as stated fails: [typescript] loads, [@swc/core] does not, and the
    [ts] handle is nevertheless unset when [preloadTransformers] is done. *)
Lemma preload_successful_handle_not_set :
  IS_BUN_RUNTIME Sample.swc_missing = false
  /\ import_typescript Sample.swc_missing = inl {| default_ := Sample.compiler |}
  /\ import_swc Sample.swc_missing = inr (ModuleNotFound "@swc/core")
  /\ result (preloadTransformers Sample.swc_missing unset) = Returned tt
  /\ ts (globals (preloadTransformers Sample.swc_missing unset)) = None.
Proof. repeat split. Qed.

Lemma preload_swallows_failures_witness :
  ts (globals (preloadTransformers Sample.ts_incompatible unset)) = None
  /\ transform (globals (preloadTransformers Sample.swc_missing unset)) = None
  /\ globals (preloadTransformers Sample.bun_bare unset) = unset
  /\ trace (preloadTransformers Sample.bun_bare unset) = [].
Proof.
  split; [|split].
  - destruct (preload_swallows_failures Sample.ts_incompatible unset)
      as (_ & H & _ & _).
    apply (H (IncompatibleVersion "typescript")). reflexivity.
  - destruct (preload_swallows_failures Sample.swc_missing unset)
      as (_ & _ & H & _).
    apply (H (ModuleNotFound "@swc/core")). reflexivity.
  - destruct (preload_swallows_failures Sample.bun_bare unset)
      as (_ & _ & _ & H).
    apply H. reflexivity.
Defined.

(** ** The project classifier *)

Section Classifier.

Context {Program SwcTransform : Type}.
Implicit Types (h : Host Program SwcTransform) (g : Globals Program SwcTransform).

(** C5: [isTypescriptProject] answers true exactly when the config file
    exists and both handles are set; the missing list holds exactly the
    absent prerequisites, in the order config file, compiler, transformer;
    and without a config file the answer is false and names the config
    file, whatever the handles are. *)
Theorem classify_three_prerequisites h g :
  let present := existsSync h (path_join h (cwd h) "tsconfig.json") in
  let r := isTypescriptProject h g in
  (isTypeScript r = true <->
     present = true /\ ts g <> None /\ transform g <> None) /\
  missing r =
    (if present then [] else ["tsconfig.json"])
    ++ (match ts g with Some _ => [] | None => ["typescript"] end)
    ++ (match transform g with Some _ => [] | None => ["@swc/core"] end) /\
  (present = false ->
     isTypeScript r = false /\ In "tsconfig.json" (missing r)).
Proof.
  intros present r. subst present r. unfold isTypescriptProject, push.
  destruct (existsSync h _) eqn:Hcfg, (ts g) as [t|] eqn:Hts,
    (transform g) as [f|] eqn:Htr; cbn;
    repeat first [ split | intros (? & ? & ?) | intros ? ];
    first [ reflexivity | discriminate | congruence | (cbn; tauto) ].
Qed.

End Classifier.

Lemma classify_three_prerequisites_witness :
  isTypeScript (isTypescriptProject Sample.node_full (Sample.loaded Sample.compiler)) = true
  /\ isTypeScript
       (isTypescriptProject
          Sample.no_config
          (Sample.loaded Sample.compiler)) = false.
Proof.
  split.
  - apply (classify_three_prerequisites Sample.node_full (Sample.loaded Sample.compiler)).
    repeat split; discriminate.
  - apply (classify_three_prerequisites
             Sample.no_config
             (Sample.loaded Sample.compiler)).
    reflexivity.
Defined.

(** ** The declaration emitter *)

Section Emitter.

Context {Program SwcTransform : Type}.
Implicit Types (t : Typescript Program) (g : Globals Program SwcTransform)
  (d : Diagnostic).

Lemma formatDiagnostic_defined t d :
  well_located d -> exists s, formatDiagnostic t d = Some s.
Proof.
  unfold well_located, formatDiagnostic.
  destruct (file d) as [f|]; [|eauto].
  destruct (start d) as [pos|]; [eauto|].
  intros [H | H]; [discriminate | contradiction].
Qed.

(** One diagnostic, one line on the channel of its severity. *)
Lemma reportDiagnostic_run t d g s :
  formatDiagnostic t d = Some s ->
  reportDiagnostic (SwcTransform := SwcTransform) t d g
  = (Returned tt, g, [EvLog (channel (category d)) [AStr s]]).
Proof.
  intros Hs. unfold reportDiagnostic. rewrite Hs.
  destruct (category d); reflexivity.
Qed.

Lemma reportDiagnostic_stuck t d g :
  formatDiagnostic t d = None ->
  reportDiagnostic (SwcTransform := SwcTransform) t d g = (OutOfContract, g, []).
Proof.
  intros Hs. unfold reportDiagnostic. rewrite Hs.
  destruct (category d); reflexivity.
Qed.

(** The loop over the diagnostics never touches the handles and only
    logs; on well-located diagnostics it logs every one of them, in order,
    and returns. *)
Lemma forEach_report_run t (ds : list Diagnostic) g :
  exists o tr,
    forEach ds (reportDiagnostic (SwcTransform := SwcTransform) t) g = (o, g, tr)
    /\ forallb is_log tr = true
    /\ (Forall well_located ds -> o = Returned tt /\ Forall2 (logged t) ds tr).
Proof.
  induction ds as [|d ds IH]; cbn.
  - exists (Returned tt), []. repeat split; constructor.
  - destruct IH as (o & tr & Hrun & Hlog & Hok).
    unfold bind.
    destruct (formatDiagnostic t d) as [s|] eqn:Hs.
    + rewrite (reportDiagnostic_run t d g s Hs), Hrun.
      exists o, (EvLog (channel (category d)) [AStr s] :: tr).
      split; [reflexivity|]. split; [exact Hlog|].
      intros Hall. inversion Hall as [|? ? Hd Hds]; subst.
      destruct (Hok Hds) as [-> HF]. split; [reflexivity|].
      constructor; [exists s; split; [exact Hs | reflexivity] | exact HF].
    + rewrite (reportDiagnostic_stuck t d g Hs).
      exists OutOfContract, []. split; [reflexivity|]. split; [reflexivity|].
      intros Hall. inversion Hall as [|? ? Hd Hds]; subst.
      destruct (formatDiagnostic_defined t d Hd) as [s Hs']. congruence.
Qed.

Lemma logged_no_exit t (ds : list Diagnostic) (tr : list event) :
  Forall2 (logged t) ds tr -> List.filter is_exit tr = [] /\ List.filter is_log tr = tr.
Proof.
  induction 1 as [|d e ds tr (s & _ & ->) _ [IH1 IH2]]; [split; reflexivity|].
  cbn. rewrite IH1, IH2. split; reflexivity.
Qed.

(** The whole run of [buildDeclarationFiles] on a loaded compiler whose
    diagnostics are well located. *)
Lemma build_run t g tsOptions :
  ts g = Some t ->
  let fileNames := sys_readDirectory t "src" [".ts"; ".tsx"] in
  let program := createProgram t fileNames (declarationOptions t tsOptions) in
  let allDiagnostics := getPreEmitDiagnostics t program ++ diagnostics (emit t program) in
  Forall well_located allDiagnostics ->
  exists logs,
    Forall2 (logged t) allDiagnostics logs /\
    buildDeclarationFiles tsOptions g =
      (if emitSkipped (emit t program) then Exited 1 else Returned tt,
       g,
       [EvReadDirectory "src" [".ts"; ".tsx"];
        EvCreateProgram fileNames (declarationOptions t tsOptions);
        EvEmit]
       ++ logs ++ (if emitSkipped (emit t program) then [EvExit 1] else [])).
Proof.
  intros Hts fileNames program allDiagnostics Hall.
  destruct (forEach_report_run t allDiagnostics g) as (o & logs & Hrun & _ & Hok).
  destruct (Hok Hall) as [-> HF].
  exists logs. split; [exact HF|].
  unfold buildDeclarationFiles, bind, get_ts, emit_event. rewrite Hts. cbn.
  fold fileNames. fold program. fold allDiagnostics. rewrite Hrun.
  destruct (emitSkipped (emit t program)); cbn; [reflexivity|].
  rewrite app_nil_r. reflexivity.
Qed.

(** The provider is handed its options once, at the head of the run,
    whatever the diagnostics turn out to be. *)
Lemma build_creates_one_program t g tsOptions :
  ts g = Some t ->
  exists rest,
    trace (buildDeclarationFiles tsOptions g) =
      EvReadDirectory "src" [".ts"; ".tsx"]
      :: EvCreateProgram (sys_readDirectory t "src" [".ts"; ".tsx"])
           (declarationOptions t tsOptions)
      :: EvEmit :: rest
    /\ List.filter is_createProgram rest = [].
Proof.
  intros Hts.
  unfold buildDeclarationFiles, bind, get_ts, emit_event. rewrite Hts. cbn.
  match goal with |- context [forEach ?ds _ g] =>
    destruct (forEach_report_run t ds g) as (o & logs & -> & Hlog & _) end.
  assert (Hnone : List.filter is_createProgram logs = []).
  { clear -Hlog. induction logs as [|e logs IH]; [reflexivity|].
    cbn in Hlog. apply andb_prop in Hlog as [He Hl].
    destruct e; try discriminate He. cbn. auto. }
  destruct o as [[]| | |]; cbn.
  - destruct (emitSkipped _); cbn; eexists; (split; [reflexivity|]);
      rewrite List.filter_app, Hnone; reflexivity.
  - eexists; split; [reflexivity | exact Hnone].
  - eexists; split; [reflexivity | exact Hnone].
  - eexists; split; [reflexivity | exact Hnone].
Qed.

(** C4: whatever override is passed, absent or setting [incremental] to
    anything, the options object built by [buildDeclarationFiles] has
    [incremental] equal to [false], and it is this object that the one
    [createProgram] call of the run receives. *)
Theorem incremental_forced_off t g tsOptions :
  ts g = Some t ->
  declarationOptions t tsOptions !! "incremental" = Some (VBool false) /\
  (exists names, In (EvCreateProgram names (declarationOptions t tsOptions))
                    (trace (buildDeclarationFiles tsOptions g))) /\
  (forall names opts,
     In (EvCreateProgram names opts) (trace (buildDeclarationFiles tsOptions g)) ->
     opts !! "incremental" = Some (VBool false)).
Proof.
  intros Hts.
  assert (Hinc : declarationOptions t tsOptions !! "incremental" = Some (VBool false)).
  { unfold declarationOptions. apply lookup_insert_eq. }
  destruct (build_creates_one_program t g tsOptions Hts) as (rest & -> & Hrest).
  split; [exact Hinc|]. split.
  - eexists. right. left. reflexivity.
  - intros names opts [H | [H | [H | H]]]; try discriminate H.
    + injection H as _ <-. exact Hinc.
    + exfalso.
      assert (Hin : In (EvCreateProgram names opts) (List.filter is_createProgram rest)).
      { apply List.filter_In. split; [exact H | reflexivity]. }
      rewrite Hrest in Hin. destruct Hin.
Qed.

(** C6: on a loaded compiler whose diagnostics are well located, a run
    that the provider reports as skipped ends in [process.exit(1)], called
    once, as the last event, behind the log line of every diagnostic; a
    run that is not skipped returns without any call of [process.exit],
    whatever diagnostics were logged. *)
Theorem emit_skipped_exits_once t g tsOptions :
  ts g = Some t ->
  let fileNames := sys_readDirectory t "src" [".ts"; ".tsx"] in
  let program := createProgram t fileNames (declarationOptions t tsOptions) in
  let allDiagnostics := getPreEmitDiagnostics t program ++ diagnostics (emit t program) in
  Forall well_located allDiagnostics ->
  let r := buildDeclarationFiles tsOptions g in
  exists before logs,
    Forall2 (logged t) allDiagnostics logs /\
    List.filter is_exit before = [] /\
    List.filter is_log before = [] /\
    (emitSkipped (emit t program) = true ->
       result r = Exited 1 /\
       trace r = before ++ logs ++ [EvExit 1] /\
       count_exits (trace r) = 1%nat) /\
    (emitSkipped (emit t program) = false ->
       result r = Returned tt /\
       trace r = before ++ logs /\
       count_exits (trace r) = 0%nat).
Proof.
  intros Hts fileNames program allDiagnostics Hall r. subst r.
  destruct (build_run t g tsOptions Hts Hall) as (logs & HF & ->).
  fold fileNames. fold program.
  destruct (logged_no_exit t _ _ HF) as [Hnoexit _].
  exists [EvReadDirectory "src" [".ts"; ".tsx"];
          EvCreateProgram fileNames (declarationOptions t tsOptions); EvEmit], logs.
  split; [exact HF|].
  split; [|split; [|split]]; [| |intros ->|intros ->];
    unfold result, trace, count_exits; cbn.
  - reflexivity.
  - reflexivity.
  - split; [reflexivity|]. split; [reflexivity|].
    rewrite List.filter_app, Hnoexit. reflexivity.
  - split; [reflexivity|]. rewrite app_nil_r. split; [reflexivity|].
    rewrite Hnoexit. reflexivity.
Qed.

(** C7: in a run of [buildDeclarationFiles] the lines logged are, in
    order, one per diagnostic: an [Error] diagnostic on the error channel,
    a [Warning] on the warning channel, a [Message] and a [Suggestion] on
    the informational channel. *)
Theorem severity_routing t g tsOptions :
  ts g = Some t ->
  let fileNames := sys_readDirectory t "src" [".ts"; ".tsx"] in
  let program := createProgram t fileNames (declarationOptions t tsOptions) in
  let allDiagnostics := getPreEmitDiagnostics t program ++ diagnostics (emit t program) in
  Forall well_located allDiagnostics ->
  Forall2
    (fun d e =>
       exists s, formatDiagnostic t d = Some s /\
         match category d with
         | Error => e = EvLog LError [AStr s]
         | Warning => e = EvLog LWarn [AStr s]
         | Message => e = EvLog LInfo [AStr s]
         | Suggestion => e = EvLog LInfo [AStr s]
         end)
    allDiagnostics
    (List.filter is_log (trace (buildDeclarationFiles tsOptions g))).
Proof.
  intros Hts fileNames program allDiagnostics Hall.
  destruct (build_run t g tsOptions Hts Hall) as (logs & HF & ->).
  fold fileNames. fold program.
  destruct (logged_no_exit t _ _ HF) as [_ Hlogs].
  unfold trace. cbn. rewrite List.filter_app, Hlogs.
  replace (List.filter is_log _) with (@nil event)
    by (destruct (emitSkipped (emit t program)); reflexivity).
  rewrite app_nil_r.
  eapply Forall2_impl; [exact HF|].
  intros d e (s & Hs & ->). exists s. split; [exact Hs|].
  destruct (category d); reflexivity.
Qed.

(** C8: a diagnostic with a file and a start offset is rendered as the
    file name, the 1-based line and column in parentheses, a colon and the
    message flattened with the newline separator; a diagnostic without a
    file is rendered as its flattened message alone.  In particular file
    [a.ts], 0-based line 4, 0-based character 9 and message
    [Unexpected token] give [a.ts (5,10): Unexpected token]. *)
Theorem formatDiagnostic_rendering t d :
  (forall f pos,
     file d = Some f -> start d = Some pos ->
     formatDiagnostic t d =
       Some (located (fileName f)
               (line (getLineAndCharacterOfPosition t f pos) + 1)
               (character (getLineAndCharacterOfPosition t f pos) + 1)
               (flattenDiagnosticMessageText t (messageText d) newline))) /\
  (file d = None ->
     formatDiagnostic t d =
       Some (flattenDiagnosticMessageText t (messageText d) newline)) /\
  (forall f pos,
     file d = Some f -> start d = Some pos ->
     fileName f = "a.ts" ->
     getLineAndCharacterOfPosition t f pos = {| line := 4; character := 9 |} ->
     flattenDiagnosticMessageText t (messageText d) newline = "Unexpected token" ->
     formatDiagnostic t d = Some "a.ts (5,10): Unexpected token").
Proof.
  unfold formatDiagnostic, located.
  split; [|split].
  - intros f pos -> ->. cbn. reflexivity.
  - intros ->. reflexivity.
  - intros f pos -> -> -> -> ->. reflexivity.
Qed.

(** C10: [formatDiagnostic] has a value exactly on the diagnostics that
    either carry no file or carry a start offset.  With a file and no start
    offset the position lookup has no argument to work on; without a file
    the lookup is never consulted, so the rendering does not depend on
    it. *)
Theorem formatDiagnostic_domain t d :
  (formatDiagnostic t d <> None <-> file d = None \/ start d <> None) /\
  (forall f, file d = Some f -> start d = None -> formatDiagnostic t d = None) /\
  (forall t' : Typescript Program,
     file d = None ->
     flattenDiagnosticMessageText t' = flattenDiagnosticMessageText t ->
     formatDiagnostic t' d = formatDiagnostic t d
     /\ formatDiagnostic t d <> None).
Proof.
  unfold formatDiagnostic.
  destruct (file d) as [f|], (start d) as [pos|];
    (split; [split|split]); intros;
    repeat match goal with
      | H : _ \/ _ |- _ => destruct H
      | |- _ /\ _ => split
      end;
    first [ discriminate | congruence | (left; reflexivity) | (right; discriminate) ].
Qed.

End Emitter.

Lemma incremental_forced_off_witness :
  declarationOptions Sample.compiler (Some {[ "incremental" := VBool true ]})
    !! "incremental" = Some (VBool false).
Proof.
  apply (incremental_forced_off Sample.compiler (Sample.loaded Sample.compiler)
           (Some {[ "incremental" := VBool true ]}) eq_refl).
Defined.

Lemma sample_diagnostics_well_located :
  Forall well_located [Sample.unexpected_token; Sample.unused_variable].
Proof.
  constructor; [right; discriminate|].
  constructor; [left; reflexivity|].
  constructor.
Defined.

Lemma emit_skipped_exits_once_witness :
  (result (buildDeclarationFiles None (Sample.loaded Sample.compiler)) = Exited 1
   /\ count_exits (trace (buildDeclarationFiles None (Sample.loaded Sample.compiler)))
      = 1%nat)
  /\ result (buildDeclarationFiles None (Sample.loaded Sample.compiler_emitting))
     = Returned tt.
Proof.
  split.
  - destruct (emit_skipped_exits_once Sample.compiler (Sample.loaded Sample.compiler)
                None eq_refl sample_diagnostics_well_located)
      as (before & logs & _ & _ & _ & H & _).
    destruct (H eq_refl) as (H1 & _ & H3). split; [exact H1 | exact H3].
  - destruct (emit_skipped_exits_once Sample.compiler_emitting
                (Sample.loaded Sample.compiler_emitting)
                None eq_refl sample_diagnostics_well_located)
      as (before & logs & _ & _ & _ & _ & H).
    destruct (H eq_refl) as (H1 & _). exact H1.
Defined.

Lemma severity_routing_witness :
  Forall2
    (fun d e =>
       exists s, formatDiagnostic Sample.compiler d = Some s /\
         match category d with
         | Error => e = EvLog LError [AStr s]
         | Warning => e = EvLog LWarn [AStr s]
         | Message => e = EvLog LInfo [AStr s]
         | Suggestion => e = EvLog LInfo [AStr s]
         end)
    [Sample.unexpected_token; Sample.unused_variable]
    [EvLog LError [AStr "a.ts (5,10): Unexpected token"];
     EvLog LWarn [AStr "Unused variable"]].
Proof.
  exact (severity_routing Sample.compiler (Sample.loaded Sample.compiler)
           None eq_refl sample_diagnostics_well_located).
Defined.

Lemma formatDiagnostic_rendering_witness :
  formatDiagnostic Sample.compiler Sample.unexpected_token
  = Some "a.ts (5,10): Unexpected token"
  /\ formatDiagnostic Sample.compiler Sample.unused_variable = Some "Unused variable".
Proof.
  split.
  - apply (formatDiagnostic_rendering Sample.compiler Sample.unexpected_token)
      with (f := Sample.a_ts) (pos := 21%N); reflexivity.
  - apply (formatDiagnostic_rendering Sample.compiler Sample.unused_variable).
    reflexivity.
Defined.

Lemma formatDiagnostic_domain_witness :
  formatDiagnostic Sample.compiler Sample.no_start = None
  /\ formatDiagnostic Sample.compiler Sample.unused_variable <> None.
Proof.
  split.
  - apply (formatDiagnostic_domain Sample.compiler Sample.no_start) with (f := Sample.a_ts);
      reflexivity.
  - apply (formatDiagnostic_domain Sample.compiler Sample.unused_variable).
    left. reflexivity.
Defined.

(** ** The configuration resolver *)

Section Resolver.

Context {Program SwcTransform : Type}.
Implicit Types (h : Host Program SwcTransform) (g : Globals Program SwcTransform)
  (t : Typescript Program).

(** What decides the second fatal branch: the property [errors] of the
    converted options object.  The error list that the conversion returns
    beside the options is not read. *)
Lemma resolve_run_parsed h g t contents fields :
  let configFileName := path_join h (cwd h) "tsconfig.json" in
  let parsed := parseConfigFileTextToJson t configFileName contents in
  let converted :=
    convertCompilerOptionsFromJson t (assoc_get fields "compilerOptions")
      (path_dirname h configFileName) in
  readFile h configFileName = inl contents ->
  ts g = Some t ->
  error parsed = None ->
  config parsed = VObj fields ->
  getTypeScriptCompilerOptions h g =
    if truthy (option_get (options converted) "errors")
    then (Exited 1, g,
          [EvReadFile configFileName;
           EvLog LError [AStr "Error parsing compiler options from tsconfig.json"];
           EvExit 1])
    else (Returned (options converted), g, [EvReadFile configFileName]).
Proof.
  intros configFileName parsed converted Hread Hts Herr Hcfg.
  unfold getTypeScriptCompilerOptions, bind, get_ts, emit_event, await.
  fold configFileName. rewrite Hread. cbn. rewrite Hts. cbn.
  fold parsed. rewrite Herr, Hcfg. cbn. fold converted.
  destruct (truthy (option_get (options converted) "errors")); reflexivity.
Qed.

(** C9: when the config file is read, the compiler is loaded and the
    provider reports a parse error, [getTypeScriptCompilerOptions] logs
    the error on the error channel and ends in [process.exit(1)]; no
    option set is returned. *)
Theorem parse_error_is_fatal h g t contents e :
  let configFileName := path_join h (cwd h) "tsconfig.json" in
  readFile h configFileName = inl contents ->
  ts g = Some t ->
  error (parseConfigFileTextToJson t configFileName contents) = Some e ->
  getTypeScriptCompilerOptions h g =
    (Exited 1, g,
     [EvReadFile configFileName;
      EvLog LError [AStr "Error parsing tsconfig.json:"; ADiag e];
      EvExit 1])
  /\ (forall o, result (getTypeScriptCompilerOptions h g) <> Returned o).
Proof.
  intros configFileName Hread Hts Herr.
  assert (Hrun : getTypeScriptCompilerOptions h g =
    (Exited 1, g,
     [EvReadFile configFileName;
      EvLog LError [AStr "Error parsing tsconfig.json:"; ADiag e];
      EvExit 1])).
  { unfold getTypeScriptCompilerOptions, bind, get_ts, emit_event, await.
    fold configFileName. rewrite Hread. cbn. rewrite Hts. cbn.
    rewrite Herr. reflexivity. }
  split; [exact Hrun|].
  intros o. rewrite Hrun. discriminate.
Qed.

End Resolver.

Lemma parse_error_is_fatal_witness :
  getTypeScriptCompilerOptions Sample.node_full (Sample.loaded Sample.compiler_not_parsing)
  = (Exited 1, Sample.loaded Sample.compiler_not_parsing,
     [EvReadFile "/project/tsconfig.json";
      EvLog LError [AStr "Error parsing tsconfig.json:"; ADiag Sample.broken_json];
      EvExit 1]).
Proof.
  apply (parse_error_is_fatal Sample.node_full (Sample.loaded Sample.compiler_not_parsing)
           Sample.compiler_not_parsing Sample.tsconfig_text Sample.broken_json);
    reflexivity.
Defined.

(** C1 on the code: the conversion reports a field-level error for the
    unknown target, and [getTypeScriptCompilerOptions] neither logs nor
    exits: it returns the converted options. *)
Theorem conversion_errors_not_fatal :
  errors (convertCompilerOptionsFromJson Sample.compiler_rejecting
            (VObj [("target", VStr "bogus")]) "/project")
  = [Sample.bad_target]
  /\ getTypeScriptCompilerOptions Sample.node_full (Sample.loaded Sample.compiler_rejecting)
     = (Returned ∅, Sample.loaded Sample.compiler_rejecting,
        [EvReadFile "/project/tsconfig.json"]).
Proof.
  split; [reflexivity|].
  rewrite (resolve_run_parsed Sample.node_full (Sample.loaded Sample.compiler_rejecting)
             Sample.compiler_rejecting Sample.tsconfig_text
             [("compilerOptions", VObj [("target", VStr "bogus")])]);
    reflexivity.
Qed.

(** * Further properties *)

(** ** The options object of the emitter *)

Section EmitterOptions.

Context {Program : Type}.
Implicit Types (t : Typescript Program) (o : CompilerOptions)
  (tsOptions : option CompilerOptions) (k : string).

(** Every property but [incremental] is read from the overrides first and
    from the literal's defaults second. *)
Lemma declarationOptions_lookup t tsOptions k :
  k <> "incremental" ->
  declarationOptions t tsOptions !! k
  = match default ∅ tsOptions !! k with
    | Some v => Some v
    | None => declarationOptions t None !! k
    end.
Proof.
  intros Hk. unfold declarationOptions, spread.
  rewrite !(lookup_insert_ne _ "incremental") by congruence.
  rewrite !lookup_union. cbn [default]. rewrite lookup_empty.
  destruct (default ∅ tsOptions !! k) as [v|]; [|reflexivity].
  match goal with |- context [Some v ∪ ?x] => destruct x end; reflexivity.
Qed.

(** X1: a caller's override wins over the emitter's default for every
    option except [incremental], also when the overriding value is
    [undefined]: the property is then present with that value and the
    default is gone. *)
Theorem override_takes_precedence t o k v :
  k <> "incremental" ->
  o !! k = Some v ->
  declarationOptions t (Some o) !! k = Some v.
Proof.
  intros Hk Hv. rewrite (declarationOptions_lookup t (Some o) k Hk).
  change (default ∅ (Some o)) with o. rewrite Hv. reflexivity.
Qed.

(** X2: an option the caller does not override keeps the emitter's
    setting: the target, root and output directories, the declaration-only
    flags, the module resolution, [noEmit] and [skipLibCheck] of the object
    literal, [incremental] off, and no other property. *)
Theorem defaults_without_override t tsOptions k :
  default ∅ tsOptions !! k = None ->
  declarationOptions t tsOptions !! k
  = (list_to_map
       [("target", VNum (ScriptTarget_Latest t));
        ("rootDir", VStr "src");
        ("outDir", VStr ".robo/build");
        ("declaration", VBool true);
        ("emitDeclarationOnly", VBool true);
        ("moduleResolution", VNum (ModuleResolutionKind_NodeNext t));
        ("noEmit", VBool false);
        ("skipLibCheck", VBool true);
        ("incremental", VBool false)] : CompilerOptions) !! k.
Proof.
  intros Hnone. unfold declarationOptions, spread. cbn [list_to_map foldr uncurry].
  rewrite (lookup_insert (M := gmap string)).
  case_decide as Hinc.
  - subst k. rewrite !lookup_insert.
    repeat (case_decide; simplify_eq/=; try done).
  - rewrite lookup_union_r by exact Hnone.
    rewrite !lookup_insert.
    repeat (case_decide; simplify_eq/=; try done).
Qed.

(** X3: the construction is idempotent: feeding its result back in as the
    override gives the same options object. *)
Theorem declarationOptions_idempotent t tsOptions :
  declarationOptions t (Some (declarationOptions t tsOptions))
  = declarationOptions t tsOptions.
Proof.
  apply map_eq. intros k.
  destruct (decide (k = "incremental")) as [->|Hk].
  - unfold declarationOptions at 1. rewrite lookup_insert_eq.
    unfold declarationOptions. rewrite lookup_insert_eq. reflexivity.
  - rewrite (declarationOptions_lookup t (Some _) k Hk).
    change (default ∅ (Some ?m)) with m.
    destruct (declarationOptions t tsOptions !! k) as [v|] eqn:Hv; [reflexivity|].
    rewrite (declarationOptions_lookup t tsOptions k Hk) in Hv.
    destruct (default ∅ tsOptions !! k); [discriminate | exact Hv].
Qed.

End EmitterOptions.

(** ** Runs of the emitter on any provider answers *)

Section EmitterRuns.

Context {Program SwcTransform : Type}.
Implicit Types (t : Typescript Program) (g : Globals Program SwcTransform)
  (tsOptions : option CompilerOptions).

(** The loop over the diagnostics either goes through or stops where a
    rendering has no value; it only logs and leaves the handles alone. *)
Lemma forEach_report_outcome t (ds : list Diagnostic) g :
  exists o tr,
    forEach ds (reportDiagnostic (SwcTransform := SwcTransform) t) g = (o, g, tr)
    /\ (o = Returned tt \/ o = OutOfContract)
    /\ Forall (fun e => is_log e = true) tr
    /\ List.filter is_exit tr = [].
Proof.
  induction ds as [|d ds (o & tr & Hrun & Ho & Hlog & Hexit)]; cbn.
  - exists (Returned tt), []. repeat split; [left; reflexivity | constructor].
  - unfold bind. destruct (formatDiagnostic t d) as [s|] eqn:Hs.
    + rewrite (reportDiagnostic_run t d g s Hs), Hrun.
      exists o, (EvLog (channel (category d)) [AStr s] :: tr).
      repeat split; [exact Ho | constructor; [reflexivity | exact Hlog] | exact Hexit].
    + rewrite (reportDiagnostic_stuck t d g Hs).
      exists OutOfContract, []. repeat split; [right; reflexivity | constructor].
Qed.

(** The run of [buildDeclarationFiles] on a loaded compiler, whatever the
    diagnostics are. *)
Lemma build_run_any t g tsOptions :
  ts g = Some t ->
  let fileNames := sys_readDirectory t "src" [".ts"; ".tsx"] in
  let program := createProgram t fileNames (declarationOptions t tsOptions) in
  exists logs,
    Forall (fun e => is_log e = true) logs /\
    List.filter is_exit logs = [] /\
    (buildDeclarationFiles tsOptions g =
       (if emitSkipped (emit t program) then Exited 1 else Returned tt, g,
        [EvReadDirectory "src" [".ts"; ".tsx"];
         EvCreateProgram fileNames (declarationOptions t tsOptions); EvEmit]
        ++ logs ++ (if emitSkipped (emit t program) then [EvExit 1] else []))
     \/ buildDeclarationFiles tsOptions g =
       (OutOfContract, g,
        [EvReadDirectory "src" [".ts"; ".tsx"];
         EvCreateProgram fileNames (declarationOptions t tsOptions); EvEmit]
        ++ logs)).
Proof.
  intros Hts fileNames program.
  unfold buildDeclarationFiles, bind, get_ts, emit_event. rewrite Hts. cbn.
  fold fileNames. fold program.
  match goal with |- context [forEach ?ds _ g] =>
    destruct (forEach_report_outcome t ds g) as (o & logs & -> & Ho & Hlog & Hexit) end.
  exists logs. split; [exact Hlog|]. split; [exact Hexit|].
  destruct Ho as [-> | ->]; [left | right; reflexivity].
  destruct (emitSkipped (emit t program)); cbn; [reflexivity|].
  rewrite app_nil_r. reflexivity.
Qed.

Lemma build_run_unloaded g tsOptions :
  ts g = None ->
  buildDeclarationFiles tsOptions g = (Thrown (TypeError "ts is undefined"), g, []).
Proof.
  intros Hts. unfold buildDeclarationFiles, bind, get_ts. rewrite Hts. reflexivity.
Qed.

Lemma no_exit_in_logs (logs : list event) s :
  List.filter is_exit logs = [] -> ~ In (EvExit s) logs.
Proof.
  intros Hexit Hin.
  assert (H : In (EvExit s) (List.filter is_exit logs))
    by (apply List.filter_In; split; [exact Hin | reflexivity]).
  rewrite Hexit in H. destruct H.
Qed.

(** X4: [buildDeclarationFiles] never assigns the provider handles, and
    it calls [process.exit] at most once, always with status 1 and always
    as the last thing it does: an exit event in the trace means the run
    ended in that exit, with no exit before it. *)
Theorem build_exit_discipline g tsOptions :
  let r := buildDeclarationFiles tsOptions g in
  globals r = g /\
  (count_exits (trace r) <= 1)%nat /\
  (forall s, In (EvExit s) (trace r) ->
     s = 1%Z /\ result r = Exited 1 /\
     exists before, trace r = before ++ [EvExit 1] /\ count_exits before = 0%nat) /\
  (forall s, result r = Exited s -> In (EvExit s) (trace r)).
Proof.
  intros r. subst r.
  destruct (ts g) as [t|] eqn:Hts.
  - destruct (build_run_any t g tsOptions Hts) as (logs & Hlog & Hexit & [Hrun | Hrun]);
      rewrite Hrun; clear Hrun; unfold globals, result, trace, count_exits;
      cbn [fst snd app].
    + destruct (emitSkipped _); cbn [List.filter is_exit];
        rewrite ?app_nil_r, ?List.filter_app, ?Hexit; cbn.
      * split; [reflexivity|]. split; [lia|]. split.
        -- intros s [H | [H | [H | H]]]; try discriminate H.
           apply in_app_iff in H as [H | [H | []]];
             [destruct (no_exit_in_logs logs s Hexit H)|].
           injection H as <-. split; [reflexivity|]. split; [reflexivity|].
           eexists (_ :: _ :: _ :: logs). split; [reflexivity|].
           cbn. rewrite Hexit. reflexivity.
        -- intros s [= <-]. do 3 right. apply in_app_iff. right. left. reflexivity.
      * split; [reflexivity|]. split; [lia|]. split; [|discriminate].
        intros s [H | [H | [H | H]]]; try discriminate H.
        destruct (no_exit_in_logs logs s Hexit H).
    + cbn [List.filter is_exit]. rewrite Hexit. cbn.
      split; [reflexivity|]. split; [lia|]. split; [|discriminate].
      intros s [H | [H | [H | H]]]; try discriminate H.
      destruct (no_exit_in_logs logs s Hexit H).
  - rewrite (build_run_unloaded g tsOptions Hts).
    unfold globals, result, trace, count_exits; cbn.
    split; [reflexivity|]. split; [lia|]. split; [intros s []|discriminate].
Qed.

(** X5: sources are always discovered in [src] with the extensions [.ts]
    and [.tsx], once per run, and the program is created over exactly the
    files found there.  Overriding [rootDir] changes the option the
    compiler receives, not the directory that is searched. *)
Theorem discovery_ignores_rootDir t g (o : CompilerOptions) v :
  ts g = Some t ->
  o !! "rootDir" = Some v ->
  exists opts rest,
    trace (buildDeclarationFiles (Some o) g) =
      EvReadDirectory "src" [".ts"; ".tsx"]
      :: EvCreateProgram (sys_readDirectory t "src" [".ts"; ".tsx"]) opts
      :: rest
    /\ opts !! "rootDir" = Some v
    /\ Forall (fun e => match e with EvReadDirectory _ _ => False | _ => True end) rest.
Proof.
  intros Hts Hroot.
  exists (declarationOptions t (Some o)).
  assert (Hopt : declarationOptions t (Some o) !! "rootDir" = Some v).
  { rewrite declarationOptions_lookup by discriminate.
    change (default ∅ (Some o)) with o. rewrite Hroot. reflexivity. }
  assert (Hlogs : forall logs : list event,
            Forall (fun e => is_log e = true) logs ->
            Forall (fun e => match e with EvReadDirectory _ _ => False | _ => True end) logs).
  { intros logs H. eapply Forall_impl; [exact H|].
    intros [] He; try discriminate He; exact I. }
  destruct (build_run_any t g (Some o) Hts) as (logs & Hlog & _ & [Hrun | Hrun]);
    rewrite Hrun; unfold trace; cbn [fst snd app]; eexists;
    (split; [reflexivity|]); (split; [exact Hopt|]);
    constructor; try exact I; try (apply Hlogs; exact Hlog).
  apply Forall_app. split; [apply Hlogs; exact Hlog|].
  destruct (emitSkipped _); repeat constructor.
Qed.

(** X15: on a loaded compiler the program is created and emitted exactly
    once, before anything is logged: whatever the diagnostics say, the
    emission has already been attempted, and all that follows it is logging
    and the final exit. *)
Theorem emit_precedes_logging t g tsOptions :
  ts g = Some t ->
  exists rest,
    trace (buildDeclarationFiles tsOptions g) =
      EvReadDirectory "src" [".ts"; ".tsx"]
      :: EvCreateProgram (sys_readDirectory t "src" [".ts"; ".tsx"])
           (declarationOptions t tsOptions)
      :: EvEmit :: rest
    /\ Forall (fun e => is_log e = true \/ is_exit e = true) rest.
Proof.
  intros Hts.
  destruct (build_run_any t g tsOptions Hts) as (logs & Hlog & _ & [Hrun | Hrun]);
    rewrite Hrun; unfold trace; cbn [fst snd app]; eexists;
    (split; [reflexivity|]).
  - apply Forall_app. split.
    + eapply Forall_impl; [exact Hlog|]. intros e He. left. exact He.
    + destruct (emitSkipped _);
        [constructor; [right; reflexivity | constructor] | constructor].
  - eapply Forall_impl; [exact Hlog|]. intros e He. left. exact He.
Qed.

End EmitterRuns.

(** ** Runs of the resolver on any host and provider answers *)

Section ResolverRuns.

Context {Program SwcTransform : Type}.
Implicit Types (h : Host Program SwcTransform) (g : Globals Program SwcTransform)
  (t : Typescript Program).

Ltac resolve_unfold :=
  unfold getTypeScriptCompilerOptions, bind, get_ts, emit_event, await,
    get_compilerOptions, compilerLogger, process_exit, throw, ret.

(** X6: on a config file that parses to an object, with options that have
    no property called [errors], the resolver returns exactly the provider's
    conversion of the object's [compilerOptions] member, made relative to
    the directory of the config file; it logs nothing and does not exit. *)
Theorem resolve_returns_conversion h g t contents fields :
  let configFileName := path_join h (cwd h) "tsconfig.json" in
  let converted :=
    convertCompilerOptionsFromJson t (assoc_get fields "compilerOptions")
      (path_dirname h configFileName) in
  readFile h configFileName = inl contents ->
  ts g = Some t ->
  parseConfigFileTextToJson t configFileName contents
    = {| config := VObj fields; error := None |} ->
  options converted !! "errors" = None ->
  getTypeScriptCompilerOptions h g
  = (Returned (options converted), g, [EvReadFile configFileName]).
Proof.
  intros configFileName converted Hread Hts Hparse Hnone.
  subst configFileName converted.
  rewrite (resolve_run_parsed h g t contents fields Hread Hts);
    [| rewrite Hparse; reflexivity | rewrite Hparse; reflexivity].
  unfold option_get. rewrite Hnone. reflexivity.
Qed.

(** X7: a config file that cannot be read is not one of the logged fatal
    errors: the rejection of the read reaches the caller as it is, before
    the compiler is looked at; nothing is logged and the process is not
    terminated. *)
Theorem resolve_unreadable_config h g e :
  let configFileName := path_join h (cwd h) "tsconfig.json" in
  readFile h configFileName = inr e ->
  getTypeScriptCompilerOptions h g = (Thrown e, g, [EvReadFile configFileName]).
Proof.
  intros configFileName Hread. resolve_unfold.
  fold configFileName. rewrite Hread. reflexivity.
Qed.

(** X8: a config text that parses without error to [undefined] or [null]
    makes the resolver throw a [TypeError] on reading [compilerOptions];
    this failure is neither logged nor turned into an exit, and the
    conversion is not reached. *)
Theorem resolve_config_nullish h g t contents :
  let configFileName := path_join h (cwd h) "tsconfig.json" in
  let parsed := parseConfigFileTextToJson t configFileName contents in
  readFile h configFileName = inl contents ->
  ts g = Some t ->
  error parsed = None ->
  config parsed = VUndefined \/ config parsed = VNull ->
  exists what,
    getTypeScriptCompilerOptions h g
    = (Thrown (TypeError what), g, [EvReadFile configFileName]).
Proof.
  intros configFileName parsed Hread Hts Herr Hcfg. resolve_unfold.
  fold configFileName. rewrite Hread. cbn. rewrite Hts. cbn.
  fold parsed. rewrite Herr. cbn.
  destruct Hcfg as [-> | ->]; eexists; reflexivity.
Qed.

Lemma assoc_get_absent (fields : list (string * value)) k :
  Forall (fun kv => kv.1 <> k) fields -> assoc_get fields k = VUndefined.
Proof.
  induction 1 as [|[k' v] rest Hk _ IH]; [reflexivity|].
  cbn in *. destruct (String.eqb_spec k k'); [congruence | exact IH].
Qed.

(** X9: a config without a [compilerOptions] member, or one that is not
    an object at all (a boolean, number, string or array), is not an error:
    the provider is asked to convert [undefined], and its answer decides the
    run exactly as for a config that has the member. *)
Theorem resolve_missing_compilerOptions h g t contents :
  let configFileName := path_join h (cwd h) "tsconfig.json" in
  let parsed := parseConfigFileTextToJson t configFileName contents in
  let converted :=
    convertCompilerOptionsFromJson t VUndefined (path_dirname h configFileName) in
  readFile h configFileName = inl contents ->
  ts g = Some t ->
  error parsed = None ->
  match config parsed with
  | VUndefined | VNull => False
  | VObj fields => Forall (fun kv => kv.1 <> "compilerOptions") fields
  | VBool _ | VNum _ | VStr _ | VArr _ => True
  end ->
  getTypeScriptCompilerOptions h g =
    if truthy (option_get (options converted) "errors")
    then (Exited 1, g,
          [EvReadFile configFileName;
           EvLog LError [AStr "Error parsing compiler options from tsconfig.json"];
           EvExit 1])
    else (Returned (options converted), g, [EvReadFile configFileName]).
Proof.
  intros configFileName parsed converted Hread Hts Herr Hcfg. resolve_unfold.
  fold configFileName. rewrite Hread. cbn. rewrite Hts. cbn.
  fold parsed. rewrite Herr. cbn.
  destruct (config parsed) as [| |b|n|s|items|fields]; try contradiction; cbn;
    try rewrite (assoc_get_absent fields "compilerOptions") by assumption;
    fold converted;
    destruct (truthy (option_get (options converted) "errors")); reflexivity.
Qed.

(** X10: every call of the resolver reads the config file first, never
    assigns the provider handles, and exits at most once: an exit always
    has status 1, ends the run, and comes directly behind a line on the
    error channel. *)
Theorem resolve_exit_discipline h g :
  let r := getTypeScriptCompilerOptions h g in
  globals r = g /\
  (exists rest, trace r = EvReadFile (path_join h (cwd h) "tsconfig.json") :: rest) /\
  (count_exits (trace r) <= 1)%nat /\
  (forall s, In (EvExit s) (trace r) ->
     s = 1%Z /\ result r = Exited 1 /\
     exists before args,
       trace r = before ++ [EvLog LError args; EvExit 1]
       /\ count_exits before = 0%nat) /\
  (forall s, result r = Exited s -> In (EvExit s) (trace r)).
Proof.
  intros r. subst r. resolve_unfold.
  destruct (readFile h _) as [contents|e]; cbn;
    [destruct (ts g) as [t|]; cbn;
      [destruct (error (parseConfigFileTextToJson t _ contents)) as [d|]; cbn;
        [|destruct (config (parseConfigFileTextToJson t _ contents))
            as [| |b|n|str|items|fields]; cbn;
          try match goal with |- context [truthy ?v] => destruct (truthy v); cbn end]|]|];
    unfold globals, result, trace, count_exits; cbn;
    (split; [reflexivity|]); (split; [eexists; reflexivity|]); (split; [lia|]);
    (split; [intros s Hin; cbn in Hin;
             repeat match goal with
               | H : _ \/ _ |- _ => destruct H
               | H : False |- _ => destruct H
               | H : _ = EvExit _ |- _ => try discriminate H; injection H as <-
               end;
             (split; [reflexivity|]); (split; [reflexivity|]);
             exists [EvReadFile (path_join h (cwd h) "tsconfig.json")];
             eexists; split; reflexivity
            | intros s Hs; try discriminate Hs; injection Hs as <-;
              cbn; tauto]).
Qed.

End ResolverRuns.

(** ** The loader followed by its readers *)

Section Pipeline.

Context {Program SwcTransform : Type}.
Implicit Types (h : Host Program SwcTransform) (g : Globals Program SwcTransform).

(** The state [preloadTransformers] leaves behind, from any state. *)
Lemma preload_globals h g :
  globals (preloadTransformers h g) =
    if IS_BUN_RUNTIME h then g
    else match import_typescript h, import_swc h with
         | inl m1, inl m2 =>
             {| ts := Some (default_ m1); transform := Some (swc_transform m2) |}
         | _, _ => g
         end.
Proof.
  destruct (IS_BUN_RUNTIME h) eqn:Hbun.
  - rewrite (preload_run_bun h g Hbun). reflexivity.
  - rewrite (preload_run h g Hbun). reflexivity.
Qed.

Lemma preload_returns h g :
  exists tr, preloadTransformers h g = (Returned tt, globals (preloadTransformers h g), tr)
             /\ List.filter is_exit tr = [].
Proof.
  destruct (IS_BUN_RUNTIME h) eqn:Hbun.
  - rewrite (preload_run_bun h g Hbun). eexists. split; reflexivity.
  - rewrite (preload_run h g Hbun). eexists. split; reflexivity.
Qed.

(** X11: loading twice is the same as loading once: a second
    [preloadTransformers] on the same host returns as well and leaves the
    handles of the first. *)
Theorem preload_idempotent h g :
  let twice := (preloadTransformers h ;;; preloadTransformers h) g in
  result twice = Returned tt /\
  globals twice = globals (preloadTransformers h g).
Proof.
  intros twice. subst twice. unfold bind.
  destruct (preload_returns h g) as (tr1 & Hrun1 & _). rewrite Hrun1.
  destruct (preload_returns h (globals (preloadTransformers h g))) as (tr2 & Hrun2 & _).
  rewrite Hrun2. unfold result, globals at 1. cbn [fst snd].
  split; [reflexivity|].
  rewrite !preload_globals.
  destruct (IS_BUN_RUNTIME h); [reflexivity|].
  destruct (import_typescript h), (import_swc h); reflexivity.
Qed.

(** X12: the loader never clears a handle that is set, and it keeps the
    two handles paired: if they were both set or both unset before, they
    are both set or both unset afterwards. *)
Theorem preload_keeps_handles_paired h g :
  let g' := globals (preloadTransformers h g) in
  (ts g <> None -> ts g' <> None) /\
  (transform g <> None -> transform g' <> None) /\
  ((ts g = None <-> transform g = None) ->
   (ts g' = None <-> transform g' = None)).
Proof.
  intros g'. subst g'. rewrite preload_globals.
  destruct (IS_BUN_RUNTIME h); [tauto|].
  destruct (import_typescript h), (import_swc h); cbn; try tauto.
  repeat split; try discriminate; intros; discriminate.
Qed.

(** X13: what the classifier says after the loader has run on a fresh
    module: the project is a TypeScript project exactly when the config
    file exists, the runtime is not Bun and both imports succeeded; and the
    two providers are reported missing together or not at all, so a single
    failed import makes both appear as missing. *)
Theorem classified_after_preload h :
  let c := isTypescriptProject h (globals (preloadTransformers h unset)) in
  (isTypeScript c = true <->
     existsSync h (path_join h (cwd h) "tsconfig.json") = true
     /\ IS_BUN_RUNTIME h = false
     /\ (exists m, import_typescript h = inl m)
     /\ (exists m, import_swc h = inl m)) /\
  (In "typescript" (missing c) <-> In "@swc/core" (missing c)).
Proof.
  intros c. subst c. rewrite preload_globals. unfold isTypescriptProject, push.
  destruct (existsSync h _), (IS_BUN_RUNTIME h),
    (import_typescript h) as [m1|e1], (import_swc h) as [m2|e2]; cbn;
    (split; [split; [intros H; try discriminate H; eauto 10
                    | intros (H1 & H2 & [? H3] & [? H4]); congruence]
            | split; intros H;
              repeat match goal with
                | H : _ \/ _ |- _ => destruct H
                | H : False |- _ => destruct H
                | H : _ = _ |- _ => discriminate H
                end; auto]).
Qed.

(** X14: when the loader ran under Bun or either import failed, the
    compiler is not there for its users: [buildDeclarationFiles] throws a
    [TypeError] before it reads a directory or creates a program, and
    [getTypeScriptCompilerOptions] throws one right after reading a
    readable config file; neither logs a line or exits. *)
Theorem unavailable_compiler_throws h tsOptions contents :
  IS_BUN_RUNTIME h = true
  \/ (exists e, import_typescript h = inr e)
  \/ (exists e, import_swc h = inr e) ->
  readFile h (path_join h (cwd h) "tsconfig.json") = inl contents ->
  let build := (preloadTransformers h ;;; buildDeclarationFiles tsOptions) unset in
  let resolve := (preloadTransformers h ;;; getTypeScriptCompilerOptions h) unset in
  (exists what, result build = Thrown (TypeError what)) /\
  trace build = trace (preloadTransformers h unset) /\
  (exists what, result resolve = Thrown (TypeError what)) /\
  trace resolve
  = trace (preloadTransformers h unset)
    ++ [EvReadFile (path_join h (cwd h) "tsconfig.json")].
Proof.
  intros Hun Hread build resolve. subst build resolve. unfold bind.
  destruct (preload_returns h unset) as (tr & Hrun & _).
  assert (Hg : globals (preloadTransformers h unset) = unset).
  { rewrite preload_globals.
    destruct (IS_BUN_RUNTIME h); [reflexivity|].
    destruct Hun as [Hb | [[e He] | [e He]]]; [discriminate Hb | |]; rewrite He;
      [|destruct (import_typescript h)]; reflexivity. }
  rewrite Hg in Hrun. rewrite Hrun.
  rewrite (build_run_unloaded unset tsOptions eq_refl).
  unfold getTypeScriptCompilerOptions, bind, get_ts, emit_event, await.
  rewrite Hread. cbn. unfold result, trace. cbn.
  rewrite app_nil_r. repeat split; eauto.
Qed.

End Pipeline.

(** ** Runs on the sample project *)

Lemma override_takes_precedence_witness :
  declarationOptions Sample.compiler (Some {[ "target" := VUndefined ]}) !! "target"
  = Some VUndefined.
Proof.
  apply (override_takes_precedence Sample.compiler {[ "target" := VUndefined ]}
           "target" VUndefined); [discriminate | reflexivity].
Defined.

Lemma defaults_without_override_witness :
  declarationOptions Sample.compiler (Some {[ "target" := VNum 9 ]}) !! "outDir"
  = Some (VStr ".robo/build").
Proof.
  apply (defaults_without_override Sample.compiler (Some {[ "target" := VNum 9 ]}) "outDir").
  reflexivity.
Defined.

Lemma build_exit_discipline_witness :
  result (buildDeclarationFiles None (Sample.loaded Sample.compiler)) = Exited 1.
Proof.
  destruct (build_exit_discipline (Sample.loaded Sample.compiler) None)
    as (_ & _ & H & _).
  apply (H 1%Z). vm_compute. tauto.
Defined.

Lemma discovery_ignores_rootDir_witness :
  exists opts rest,
    trace (buildDeclarationFiles (Some {[ "rootDir" := VStr "lib" ]})
             (Sample.loaded Sample.compiler)) =
      EvReadDirectory "src" [".ts"; ".tsx"]
      :: EvCreateProgram ["src/index.ts"] opts :: rest
    /\ opts !! "rootDir" = Some (VStr "lib")
    /\ Forall (fun e => match e with EvReadDirectory _ _ => False | _ => True end) rest.
Proof.
  apply (discovery_ignores_rootDir Sample.compiler (Sample.loaded Sample.compiler)
           {[ "rootDir" := VStr "lib" ]} (VStr "lib")); reflexivity.
Defined.

Lemma emit_precedes_logging_witness :
  exists rest,
    trace (buildDeclarationFiles None (Sample.loaded Sample.compiler)) =
      EvReadDirectory "src" [".ts"; ".tsx"]
      :: EvCreateProgram ["src/index.ts"] (declarationOptions Sample.compiler None)
      :: EvEmit :: rest
    /\ Forall (fun e => is_log e = true \/ is_exit e = true) rest.
Proof.
  apply (emit_precedes_logging Sample.compiler (Sample.loaded Sample.compiler) None).
  reflexivity.
Defined.

Lemma resolve_returns_conversion_witness :
  getTypeScriptCompilerOptions Sample.node_full (Sample.loaded Sample.compiler)
  = (Returned {[ "target" := VNum 7 ]}, Sample.loaded Sample.compiler,
     [EvReadFile "/project/tsconfig.json"]).
Proof.
  apply (resolve_returns_conversion Sample.node_full (Sample.loaded Sample.compiler)
           Sample.compiler Sample.tsconfig_text
           [("compilerOptions", VObj [("target", VStr "bogus")])]);
    reflexivity.
Defined.

Lemma resolve_unreadable_config_witness :
  getTypeScriptCompilerOptions Sample.no_config unset
  = (Thrown (FileNotReadable "/elsewhere/tsconfig.json"), unset,
     [EvReadFile "/elsewhere/tsconfig.json"]).
Proof.
  apply (resolve_unreadable_config Sample.no_config unset
           (FileNotReadable "/elsewhere/tsconfig.json")).
  reflexivity.
Defined.

Lemma resolve_config_nullish_witness :
  exists what,
    getTypeScriptCompilerOptions Sample.node_full
      (Sample.loaded Sample.compiler_null_config)
    = (Thrown (TypeError what), Sample.loaded Sample.compiler_null_config,
       [EvReadFile "/project/tsconfig.json"]).
Proof.
  apply (resolve_config_nullish Sample.node_full
           (Sample.loaded Sample.compiler_null_config)
           Sample.compiler_null_config Sample.tsconfig_text);
    [reflexivity | reflexivity | reflexivity | right; reflexivity].
Defined.

Lemma resolve_missing_compilerOptions_witness :
  getTypeScriptCompilerOptions Sample.node_full
    (Sample.loaded Sample.compiler_bare_config)
  = (Returned {[ "target" := VNum 7 ]}, Sample.loaded Sample.compiler_bare_config,
     [EvReadFile "/project/tsconfig.json"]).
Proof.
  apply (resolve_missing_compilerOptions Sample.node_full
           (Sample.loaded Sample.compiler_bare_config)
           Sample.compiler_bare_config Sample.tsconfig_text);
    [reflexivity | reflexivity | reflexivity |].
  constructor; [discriminate | constructor].
Defined.

Lemma resolve_exit_discipline_witness :
  result (getTypeScriptCompilerOptions Sample.node_full
            (Sample.loaded Sample.compiler_not_parsing)) = Exited 1.
Proof.
  destruct (resolve_exit_discipline Sample.node_full
              (Sample.loaded Sample.compiler_not_parsing))
    as (_ & _ & _ & H & _).
  apply (H 1%Z). vm_compute. tauto.
Defined.

Lemma preload_keeps_handles_paired_witness :
  ts (globals (preloadTransformers Sample.swc_missing (Sample.loaded Sample.compiler)))
  <> None
  /\ (ts (globals (preloadTransformers Sample.node_full unset)) = None
      <-> transform (globals (preloadTransformers Sample.node_full unset)) = None).
Proof.
  split.
  - apply (preload_keeps_handles_paired Sample.swc_missing (Sample.loaded Sample.compiler)).
    discriminate.
  - apply (preload_keeps_handles_paired Sample.node_full unset).
    split; reflexivity.
Defined.

Lemma classified_after_preload_witness :
  isTypeScript
    (isTypescriptProject Sample.node_full
       (globals (preloadTransformers Sample.node_full unset))) = true
  /\ In "typescript"
       (missing (isTypescriptProject Sample.swc_missing
                   (globals (preloadTransformers Sample.swc_missing unset)))).
Proof.
  split.
  - apply (classified_after_preload Sample.node_full).
    repeat split; [eexists; reflexivity | eexists; reflexivity].
  - apply (classified_after_preload Sample.swc_missing).
    vm_compute. tauto.
Defined.

Lemma unavailable_compiler_throws_witness :
  exists what,
    result ((preloadTransformers Sample.swc_missing ;;; buildDeclarationFiles None) unset)
    = Thrown (TypeError what).
Proof.
  apply (unavailable_compiler_throws Sample.swc_missing None Sample.tsconfig_text).
  - right. right. eexists. reflexivity.
  - reflexivity.
Defined.
